(** * importlib_resources.abc: readers, traversables and the adapters between them

    A shallow embedding of [importlib_resources/abc.py].  The module is
    dynamically typed and most of what it does is attribute lookup and method
    dispatch on objects whose class is only known at run time, so the
    embedding keeps a universal type of Python values, the attribute tables of
    the classes as the class bodies give them, and an exception monad.  Every
    method of the module is a function named after it. *)

From Stdlib Require Import String Ascii List Bool ZArith.
From Stdlib Require Import Strings.Byte.
Import ListNotations.
Open Scope string_scope.
Open Scope list_scope.
Set Warnings "-register-all".

(** ** Exceptions and the exception monad *)

Inductive exn : Type :=
| AttributeError
| TypeError
| StopIteration
| FileNotFoundError
| IsADirectoryError
| OtherError (kind : string).

Inductive result (A : Type) : Type :=
| Ok (a : A)
| Err (e : exn).
Arguments Ok {A} a.
Arguments Err {A} e.

Definition bind {A B : Type} (m : result A) (k : A -> result B) : result B :=
  match m with
  | Ok a => k a
  | Err e => Err e
  end.

Notation "x <- m ;; k" := (bind m (fun x => k))
  (at level 61, m at next level, right associativity).

(** ** Iterators

    What a consumer sees of a (finite) iterator: the items it yields, up to its
    normal end or up to the first exception that producing an item raises. *)

Inductive iterator (A : Type) : Type :=
| Stop
| Yield (a : A) (rest : iterator A)
| Raise (e : exn).
Arguments Stop {A}.
Arguments Yield {A} a rest.
Arguments Raise {A} e.

Fixpoint iter_of_list {A : Type} (l : list A) : iterator A :=
  match l with
  | [] => Stop
  | a :: l' => Yield a (iter_of_list l')
  end.

(** [f(x) for x in it] and [map(f, it)]: items are produced on demand, and an
    exception in [f] surfaces when that item is asked for. *)
Fixpoint iter_map {A B : Type} (f : A -> result B) (it : iterator A) : iterator B :=
  match it with
  | Stop => Stop
  | Yield a rest =>
      match f a with
      | Ok b => Yield b (iter_map f rest)
      | Err e => Raise e
      end
  | Raise e => Raise e
  end.

(** [x for x in it if p(x)] *)
Fixpoint iter_filter {A : Type} (p : A -> result bool) (it : iterator A) : iterator A :=
  match it with
  | Stop => Stop
  | Yield a rest =>
      match p a with
      | Ok true => Yield a (iter_filter p rest)
      | Ok false => iter_filter p rest
      | Err e => Raise e
      end
  | Raise e => Raise e
  end.

(** [itertools.chain(a, b)] *)
Fixpoint chain {A : Type} (a b : iterator A) : iterator A :=
  match a with
  | Stop => b
  | Yield x rest => Yield x (chain rest b)
  | Raise e => Raise e
  end.

(** [next(it)], without a default: an exhausted iterator raises StopIteration. *)
Definition next {A : Type} (it : iterator A) : result A :=
  match it with
  | Stop => Err StopIteration
  | Yield a _ => Ok a
  | Raise e => Err e
  end.

(** ** Providers and values

    A provider is an instance of a concrete subclass of [SimpleReader] (of
    [TraversableReader], when the flat reader interface is wanted): it has a
    package, child readers, resource names and opens a named resource as a
    binary stream, given here by the bytes the stream holds.  Resource names are
    text; a provider rejects anything else with TypeError.

    The values are the ones that flow through the module: the built-in data a
    caller may pass along, iterators, bound methods, providers and the two
    kinds of node. *)

Inductive reader : Type :=
  Reader {
    package : string;
    child_readers : list reader;
    resources : list string;
    open_binary : string -> result (list byte)
  }.

Inductive value : Type :=
| VNone
| VBool (b : bool)
| VInt (n : Z)
| VStr (s : string)
| VBytes (bs : list byte)
| VList (xs : list value)
| VIter (it : iterator value)
| VBinaryIO (content : list byte)
| VMethod (self : value) (attr : string)
| VReader (r : reader)
| VResourceContainer (reader : value)
| VResourceHandle (reader : value) (name : value).

(** What [open] hands back: the provider's binary stream, or a text wrapper,
    given by the parameters its constructor was called with. *)
Inductive stream : Type :=
| BinaryIO (content : list byte)
| TextIOWrapper (bound : list (string * value)).

(** ** Classes

    The classes of the module, the names each class body binds, the ones it
    declares abstract, and the method resolution order.  [Provider] stands for
    the concrete reader class an external provider brings: it supplies the four
    abstract members of [SimpleReader] and inherits the rest.  The attributes
    every object has from [object] are left out: the module uses none. *)

Inductive class : Type :=
| ABC
| ResourceReader
| Traversable
| SimpleReader
| TraversableResources
| ResourceHandle
| ResourceContainer
| TraversableReader
| Provider.

Definition own_attrs (c : class) : list string :=
  match c with
  | ABC => []
  | ResourceReader => ["open_resource"; "resource_path"; "is_resource"; "contents"]
  | Traversable =>
      ["iterdir"; "read_bytes"; "read_text"; "is_dir"; "is_file"; "joinpath";
       "__truediv__"; "open"]
  | SimpleReader => ["package"; "child_readers"; "resources"; "open_binary"; "name"]
  | TraversableResources =>
      ["files"; "open_resource"; "resource_path"; "is_resource"; "contents"]
  | ResourceHandle => ["__init__"; "is_file"; "is_dir"; "open"]
  | ResourceContainer => ["__init__"; "is_dir"; "is_file"; "iterdir"; "open"; "joinpath"]
  | TraversableReader => ["files"]
  | Provider => ["package"; "child_readers"; "resources"; "open_binary"]
  end.

Definition abstract_attrs (c : class) : list string :=
  match c with
  | ResourceReader => ["open_resource"; "resource_path"; "is_resource"; "contents"]
  | Traversable => ["iterdir"; "is_dir"; "is_file"; "joinpath"; "open"]
  | SimpleReader => ["package"; "child_readers"; "resources"; "open_binary"]
  | TraversableResources => ["files"]
  | _ => []
  end.

Definition mro (c : class) : list class :=
  match c with
  | ABC => [ABC]
  | ResourceReader => [ResourceReader; ABC]
  | Traversable => [Traversable; ABC]
  | SimpleReader => [SimpleReader; ABC]
  | TraversableResources => [TraversableResources; ResourceReader; ABC]
  | ResourceHandle => [ResourceHandle; Traversable; ABC]
  | ResourceContainer => [ResourceContainer; Traversable; ABC]
  | TraversableReader =>
      [TraversableReader; TraversableResources; ResourceReader; SimpleReader; ABC]
  | Provider =>
      [Provider; TraversableReader; TraversableResources; ResourceReader;
       SimpleReader; ABC]
  end.

Definition mem (a : string) (l : list string) : bool :=
  existsb (String.eqb a) l.

(** The class, along the resolution order of [c], whose body binds [attr]. *)
Definition resolve (c : class) (attr : string) : option class :=
  find (fun k => mem attr (own_attrs k)) (mro c).

(** The abstract members [c] leaves without an implementation. *)
Definition is_abstract (c : class) (attr : string) : bool :=
  match resolve c attr with
  | Some k => mem attr (abstract_attrs k)
  | None => false
  end.

Definition abstract_methods (c : class) : list string :=
  filter (is_abstract c) (nodup string_dec (concat (map abstract_attrs (mro c)))).

(** ** Attribute lookup *)

Fixpoint assoc {A : Type} (k : string) (l : list (string * A)) : option A :=
  match l with
  | [] => None
  | (k', v) :: l' => if String.eqb k k' then Some v else assoc k l'
  end.

(** [str.split(sep)] for a one-character separator: never empty. *)
Fixpoint split_on (sep : ascii) (s : string) : list string :=
  match s with
  | EmptyString => [EmptyString]
  | String c s' =>
      if Ascii.eqb c sep then EmptyString :: split_on sep s'
      else
        match split_on sep s' with
        | [] => [String c EmptyString]
        | w :: ws => String c w :: ws
        end
  end.

(** [SimpleReader.name]: [self.package.split('.')[-1]] *)
Definition SimpleReader_name (self : reader) : string :=
  last (split_on "."%char (package self)) EmptyString.

(** Attribute lookup on an instance of [c] whose instance dictionary is
    [fields]: the instance dictionary first, then the classes along the
    resolution order, which give a bound method. *)
Definition instance_getattr (c : class) (fields : list (string * value))
    (self : value) (attr : string) : result value :=
  match assoc attr fields with
  | Some v => Ok v
  | None =>
      match resolve c attr with
      | Some _ => Ok (VMethod self attr)
      | None => Err AttributeError
      end
  end.

(** [o.attr].  A handle stores [reader] and [name], a container stores
    [reader]; a provider has its [package] and the [name] property computed from
    it.  The built-in values have none of the attributes the module asks for. *)
Definition getattr (o : value) (attr : string) : result value :=
  match o with
  | VResourceHandle rd nm =>
      instance_getattr ResourceHandle [("reader", rd); ("name", nm)] o attr
  | VResourceContainer rd =>
      instance_getattr ResourceContainer [("reader", rd)] o attr
  | VReader r =>
      instance_getattr Provider
        [("package", VStr (package r)); ("name", VStr (SimpleReader_name r))] o attr
  | _ => Err AttributeError
  end.

(** ** Built-in operations on values *)

(** The lines of a binary stream, each with its terminator. *)
Fixpoint lines_from (cur : list byte) (bs : list byte) : list (list byte) :=
  match bs with
  | [] => match cur with [] => [] | _ => [rev cur] end
  | b :: bs' =>
      if Byte.eqb b x0a then rev (b :: cur) :: lines_from [] bs'
      else lines_from (b :: cur) bs'
  end.

(** [iter(v)] *)
Definition py_iter (v : value) : result (iterator value) :=
  match v with
  | VIter it => Ok it
  | VList xs => Ok (iter_of_list xs)
  | VStr s =>
      Ok (iter_of_list (map (fun c => VStr (String c EmptyString)) (list_ascii_of_string s)))
  | VBytes bs => Ok (iter_of_list (map (fun b => VInt (Z.of_N (Byte.to_N b))) bs))
  | VBinaryIO content => Ok (iter_of_list (map VBytes (lines_from [] content)))
  | _ => Err TypeError
  end.

(** [v == s] for a str [s]: only an equal str compares equal. *)
Definition py_eq_str (v : value) (s : string) : bool :=
  match v with
  | VStr s' => String.eqb s' s
  | _ => false
  end.

(** [sub in s] on str: a substring test. *)
Fixpoint str_contains (sub s : string) : bool :=
  match s with
  | EmptyString => prefix sub EmptyString
  | String _ s' => prefix sub s || str_contains sub s'
  end.

Fixpoint iter_mem (x : string) (it : iterator value) : result bool :=
  match it with
  | Stop => Ok false
  | Yield a rest => if py_eq_str a x then Ok true else iter_mem x rest
  | Raise e => Err e
  end.

(** [x in v] for a str [x]: str looks for a substring, bytes refuses a str,
    anything else is searched by iteration. *)
Definition py_contains (x : string) (v : value) : result bool :=
  match v with
  | VStr s => Ok (str_contains x s)
  | VBytes _ => Err TypeError
  | _ => it <- py_iter v ;; iter_mem x it
  end.

(** Binding the arguments of a call to the parameters of [io.TextIOWrapper]:
    positional arguments in order, then keywords; an extra positional
    argument, an unknown keyword or a parameter given twice is a TypeError. *)
Definition TextIOWrapper_params : list string :=
  ["buffer"; "encoding"; "errors"; "newline"; "line_buffering"; "write_through"].

Fixpoint bind_positional (params : list string) (args : list value)
  : option (list (string * value)) :=
  match args, params with
  | [], _ => Some []
  | a :: args', p :: params' =>
      option_map (cons (p, a)) (bind_positional params' args')
  | _ :: _, [] => None
  end.

Fixpoint bind_keywords (params : list string) (bound kwargs : list (string * value))
  : option (list (string * value)) :=
  match kwargs with
  | [] => Some bound
  | (k, v) :: kwargs' =>
      if mem k params && negb (mem k (map fst bound))
      then bind_keywords params (bound ++ [(k, v)]) kwargs'
      else None
  end.

(** ** The module *)

Section Abc.

(** [ABC] is imported from [_compat]: whether it carries the metaclass that
    refuses to instantiate a class with abstract members left is not fixed by
    this module, so it is a parameter. *)
Variable abstract_enforced : bool.

(** [io.TextIOWrapper.__init__] once its parameters are bound and a buffer is
    among them: the io library checks the values and builds the wrapper. *)
Variable TextIOWrapper_init : list (string * value) -> result stream.

(** [io.TextIOWrapper( *args, **kwargs)]: [buffer] is the one required
    parameter. *)
Definition io_TextIOWrapper (args : list value) (kwargs : list (string * value))
  : result stream :=
  match bind_positional TextIOWrapper_params args with
  | None => Err TypeError
  | Some positional =>
      match bind_keywords TextIOWrapper_params positional kwargs with
      | None => Err TypeError
      | Some bound =>
          match assoc "buffer" bound with
          | None => Err TypeError
          | Some _ => TextIOWrapper_init bound
          end
      end
  end.

(** Calling a class: the instance is built unless abstract members are left
    and [ABC] enforces them. *)
Definition instantiate (c : class) (instance : value) : result value :=
  match abstract_methods c with
  | [] => Ok instance
  | _ :: _ => if abstract_enforced then Err TypeError else Ok instance
  end.

(** [ResourceHandle(reader, name)] and [ResourceContainer(reader)]: [__init__]
    stores its arguments. *)
Definition new_ResourceHandle (reader name : value) : result value :=
  instantiate ResourceHandle (VResourceHandle reader name).

Definition new_ResourceContainer (reader : value) : result value :=
  instantiate ResourceContainer (VResourceContainer reader).

Definition class_of (o : value) : option class :=
  match o with
  | VResourceHandle _ _ => Some ResourceHandle
  | VResourceContainer _ => Some ResourceContainer
  | VReader _ => Some Provider
  | _ => None
  end.

(** [o.attr] in call position: the class whose body holds the method that
    will run.  An attribute that is no method cannot be called. *)
Definition lookup_method (o : value) (attr : string) : result class :=
  f <- getattr o attr ;;
  match f, class_of o with
  | VMethod _ _, Some c =>
      match resolve c attr with
      | Some k => Ok k
      | None => Err AttributeError
      end
  | _, _ => Err TypeError
  end.

(** *** SimpleReader, as seen from this module *)

(** [reader.open_binary(resource)] *)
Definition call_open_binary (o : value) (resource : value) : result stream :=
  k <- lookup_method o "open_binary" ;;
  match o, resource with
  | VReader r, VStr name => content <- open_binary r name ;; Ok (BinaryIO content)
  | _, _ => Err TypeError
  end.

(** [reader.child_readers()] *)
Definition call_child_readers (o : value) : result value :=
  k <- lookup_method o "child_readers" ;;
  match o with
  | VReader r => Ok (VList (map VReader (child_readers r)))
  | _ => Err TypeError
  end.

(** *** Traversable: the abstract methods

    An abstract method that is inherited and called runs its body, which is a
    docstring: it returns None. *)
Definition Traversable_iterdir (self : value) : result value := Ok VNone.
Definition Traversable_joinpath (self : value) (child : string) : result value := Ok VNone.

(** *** ResourceHandle *)

Definition ResourceHandle_is_file (self : value) : result value := Ok (VBool true).
Definition ResourceHandle_is_dir (self : value) : result value := Ok (VBool false).

(** [[
    def open(self, mode='r', *args, **kwargs):
        stream = self.reader.open_binary(self.name)
        if 'b' not in mode:
            stream = io.TextIOWrapper( *args, **kwargs)
        return stream
    ]] *)
Definition ResourceHandle_open (self : value) (mode : value)
    (args : list value) (kwargs : list (string * value)) : result stream :=
  reader <- getattr self "reader" ;;
  name <- getattr self "name" ;;
  stream <- call_open_binary reader name ;;
  b_in_mode <- py_contains "b" mode ;;
  if negb b_in_mode then io_TextIOWrapper args kwargs else Ok stream.

(** *** ResourceContainer *)

Definition ResourceContainer_is_dir (self : value) : result value := Ok (VBool true).
Definition ResourceContainer_is_file (self : value) : result value := Ok (VBool false).

(** [[
    def iterdir(self):
        files = (ResourceHandle(self, name) for name in self.resources)
        dirs = map(ResourceContainer, self.child_readers())
        return itertools.chain(files, dirs)
    ]]
    The generator expression and [map] evaluate what they iterate over, and
    take its iterator, when they are built; the items are produced later. *)
Definition ResourceContainer_iterdir (self : value) : result value :=
  resources <- getattr self "resources" ;;
  names <- py_iter resources ;;
  let files := iter_map (fun name => new_ResourceHandle self name) names in
  children <- call_child_readers self ;;
  readers <- py_iter children ;;
  let dirs := iter_map new_ResourceContainer readers in
  Ok (VIter (chain files dirs)).

(** [[
    def open(self, *args, **kwargs):
        raise IsADirectoryError()
    ]] *)
Definition ResourceContainer_open (self : value)
    (args : list value) (kwargs : list (string * value)) : result stream :=
  Err IsADirectoryError.

(** [[
    def joinpath(self, name):
        return next(
            traversable
            for traversable in self.iterdir()
            if traversable.name == name)
    ]] *)
Definition ResourceContainer_joinpath (self : value) (name : string) : result value :=
  it <- ResourceContainer_iterdir self ;;
  traversables <- py_iter it ;;
  next (iter_filter
          (fun traversable => n <- getattr traversable "name" ;; Ok (py_eq_str n name))
          traversables).

(** *** Calls on a traversable whose class is known at run time only *)

(** [node.iterdir()] *)
Definition call_iterdir (o : value) : result value :=
  k <- lookup_method o "iterdir" ;;
  match k with
  | ResourceContainer => ResourceContainer_iterdir o
  | Traversable => Traversable_iterdir o
  | _ => Err TypeError
  end.

(** [node.joinpath(child)] *)
Definition call_joinpath (o : value) (child : string) : result value :=
  k <- lookup_method o "joinpath" ;;
  match k with
  | ResourceContainer => ResourceContainer_joinpath o child
  | Traversable => Traversable_joinpath o child
  | _ => Err TypeError
  end.

Definition remove_key (k : string) (l : list (string * value)) : list (string * value) :=
  filter (fun kv => negb (String.eqb (fst kv) k)) l.

(** [node.open( *args, **kwargs)].  A handle takes its [mode] from the first
    positional argument or from the keyword, and defaults it to ['r']; a
    container takes everything as it comes. *)
Definition call_open (o : value) (args : list value) (kwargs : list (string * value))
  : result stream :=
  k <- lookup_method o "open" ;;
  match k with
  | ResourceHandle =>
      match args, assoc "mode" kwargs with
      | mode :: args', None => ResourceHandle_open o mode args' kwargs
      | _ :: _, Some _ => Err TypeError
      | [], Some mode => ResourceHandle_open o mode [] (remove_key "mode" kwargs)
      | [], None => ResourceHandle_open o (VStr "r") [] kwargs
      end
  | ResourceContainer => ResourceContainer_open o args kwargs
  | _ => Err TypeError
  end.

(** [node.is_file()] and [node.is_dir()] *)
Definition call_is_file (o : value) : result value :=
  k <- lookup_method o "is_file" ;;
  match k with
  | ResourceHandle => ResourceHandle_is_file o
  | ResourceContainer => ResourceContainer_is_file o
  | _ => Err TypeError
  end.

Definition call_is_dir (o : value) : result value :=
  k <- lookup_method o "is_dir" ;;
  match k with
  | ResourceHandle => ResourceHandle_is_dir o
  | ResourceContainer => ResourceContainer_is_dir o
  | _ => Err TypeError
  end.

(** [node.isfile()]: no class of the module has a method of that name to run. *)
Definition call_isfile (o : value) : result value :=
  k <- lookup_method o "isfile" ;;
  Err TypeError.

(** [Traversable.__truediv__] *)
Definition Traversable_truediv (self : value) (child : string) : result value :=
  call_joinpath self child.

(** *** TraversableResources

    The flat reader interface on top of [files()], which a subclass supplies. *)

Section TraversableResources.

Variable files : value -> result value.

(** [return self.files().joinpath(resource).open('rb')] *)
Definition TraversableResources_open_resource (self : value) (resource : string)
  : result stream :=
  root <- files self ;;
  node <- call_joinpath root resource ;;
  call_open node [VStr "rb"] [].

(** [raise FileNotFoundError(resource)] *)
Definition TraversableResources_resource_path (self : value) (resource : string)
  : result value :=
  Err FileNotFoundError.

(** [return self.files().joinpath(path).isfile()] *)
Definition TraversableResources_is_resource (self : value) (path : string)
  : result value :=
  root <- files self ;;
  node <- call_joinpath root path ;;
  call_isfile node.

(** [return (item.name for item in self.files().iterdir())] *)
Definition TraversableResources_contents (self : value) : result value :=
  root <- files self ;;
  it <- call_iterdir root ;;
  entries <- py_iter it ;;
  Ok (VIter (iter_map (fun item => getattr item "name") entries)).

End TraversableResources.

(** *** TraversableReader *)

(** [return ResourceContainer(self)] *)
Definition TraversableReader_files (self : value) : result value :=
  new_ResourceContainer self.

Definition resource_path := TraversableResources_resource_path.
Definition is_resource := TraversableResources_is_resource TraversableReader_files.
Definition contents := TraversableResources_contents TraversableReader_files.

(** *** Traversable: reading a node to its end *)

(** [strm.read()] on a text wrapper: the io library reads its buffer and
    decodes. *)
Variable TextIOWrapper_read : list (string * value) -> result value.

(** [strm.read()]: a binary stream gives its bytes. *)
Definition stream_read (strm : stream) : result value :=
  match strm with
  | BinaryIO content => Ok (VBytes content)
  | TextIOWrapper bound => TextIOWrapper_read bound
  end.

(** [[
    def read_bytes(self):
        with self.open('rb') as strm:
            return strm.read()
    ]]
    A stream enters the [with] block as itself and is closed on the way out. *)
Definition Traversable_read_bytes (self : value) : result value :=
  strm <- call_open self [VStr "rb"] [] ;;
  stream_read strm.

(** [[
    def read_text(self, encoding=None):
        with self.open(encoding=encoding) as strm:
            return strm.read()
    ]] *)
Definition Traversable_read_text (self : value) (encoding : value) : result value :=
  strm <- call_open self [] [("encoding", encoding)] ;;
  stream_read strm.

(** *** ResourceReader: the bodies of the abstract methods

    Each raises FileNotFoundError, should it be called by accident. *)
Definition ResourceReader_open_resource (self : value) (resource : string)
  : result stream := Err FileNotFoundError.
Definition ResourceReader_resource_path (self : value) (resource : string)
  : result value := Err FileNotFoundError.
Definition ResourceReader_is_resource (self : value) (path : string)
  : result value := Err FileNotFoundError.
Definition ResourceReader_contents (self : value) : result value :=
  Err FileNotFoundError.

(** ** Sample providers

    [pkg] serves one resource and has no sub-package; [parent] serves two
    resources, one of them empty, and has the sub-package [sub]; [renamed]
    answers as [pkg] does under another package name. *)

Definition hi : list byte := [x68; x69].

Definition pkg : reader :=
  Reader "pkg" [] ["a.txt"]
    (fun n => if String.eqb n "a.txt" then Ok hi else Err FileNotFoundError).

Definition sub : reader :=
  Reader "pkg.sub" [] [] (fun _ => Err FileNotFoundError).

Definition parent : reader :=
  Reader "pkg" [sub] ["a.txt"; "empty.bin"]
    (fun n =>
       if String.eqb n "a.txt" then Ok hi
       else if String.eqb n "empty.bin" then Ok []
       else Err FileNotFoundError).


(** The file node for ["a.txt"] of [pkg]. *)
Definition a_txt : value := VResourceHandle (VReader pkg) (VStr "a.txt").


(** [ResourceContainer(P)] for a provider [P], then an operation on it. *)
Definition on_container {A : Type} (P : reader) (op : value -> result A) : result A :=
  c <- new_ResourceContainer (VReader P) ;; op c.

(** ** The class tables at work *)

Example handle_leaves_abstract : abstract_methods ResourceHandle = ["iterdir"; "joinpath"].
Proof. reflexivity. Qed.

Example container_is_concrete : abstract_methods ResourceContainer = [].
Proof. reflexivity. Qed.

Example name_of_sub : getattr (VReader sub) "name" = Ok (VStr "sub").
Proof. reflexivity. Qed.

Example name_of_pkg : SimpleReader_name pkg = "pkg".
Proof. reflexivity. Qed.

Example open_empty_resource :
  ResourceHandle_open (VResourceHandle (VReader parent) (VStr "empty.bin")) (VStr "rb") [] []
  = Ok (BinaryIO []).
Proof. reflexivity. Qed.

Example open_missing_resource :
  ResourceHandle_open (VResourceHandle (VReader pkg) (VStr "missing")) (VStr "rb") [] []
  = Err FileNotFoundError.
Proof. reflexivity. Qed.

Lemma new_ResourceContainer_ok (reader : value) :
  new_ResourceContainer reader = Ok (VResourceContainer reader).
Proof. reflexivity. Qed.

Lemma on_container_eq {A : Type} (P : reader) (op : value -> result A) :
  on_container P op = op (VResourceContainer (VReader P)).
Proof. reflexivity. Qed.

(** A container stores its reader and nothing else: it has no [resources],
    no [child_readers] and no [name]. *)
Lemma container_getattr (reader : value) (attr : string) :
  getattr (VResourceContainer reader) attr =
  if String.eqb attr "reader" then Ok reader
  else match resolve ResourceContainer attr with
       | Some _ => Ok (VMethod (VResourceContainer reader) attr)
       | None => Err AttributeError
       end.
Proof.
  unfold getattr, instance_getattr; simpl.
  destruct (String.eqb attr "reader"); reflexivity.
Qed.

Lemma container_has_no_resources (reader : value) :
  getattr (VResourceContainer reader) "resources" = Err AttributeError.
Proof. rewrite container_getattr; reflexivity. Qed.

Lemma container_has_no_child_readers (reader : value) :
  lookup_method (VResourceContainer reader) "child_readers" = Err AttributeError.
Proof. unfold lookup_method; rewrite container_getattr; reflexivity. Qed.

Lemma container_has_no_name (reader : value) :
  getattr (VResourceContainer reader) "name" = Err AttributeError.
Proof. rewrite container_getattr; reflexivity. Qed.

(** No value has an [isfile] attribute: the method of the traversables is
    [is_file]. *)
Lemma nothing_has_isfile (o : value) : getattr o "isfile" = Err AttributeError.
Proof. destruct o; reflexivity. Qed.

Lemma call_isfile_raises (o : value) : call_isfile o = Err AttributeError.
Proof. unfold call_isfile, lookup_method; rewrite nothing_has_isfile; reflexivity. Qed.

Lemma handle_is_file (reader name : value) :
  call_is_file (VResourceHandle reader name) = Ok (VBool true) /\
  call_is_dir (VResourceHandle reader name) = Ok (VBool false).
Proof. split; reflexivity. Qed.

(** [iterdir] stops at its first step, whatever the container holds. *)
Lemma iterdir_raises (reader : value) :
  ResourceContainer_iterdir (VResourceContainer reader) = Err AttributeError.
Proof.
  unfold ResourceContainer_iterdir.
  rewrite container_has_no_resources; reflexivity.
Qed.

Lemma joinpath_raises (reader : value) (name : string) :
  ResourceContainer_joinpath (VResourceContainer reader) name = Err AttributeError.
Proof.
  unfold ResourceContainer_joinpath.
  rewrite iterdir_raises; reflexivity.
Qed.

Lemma call_iterdir_container (reader : value) :
  call_iterdir (VResourceContainer reader) = Err AttributeError.
Proof.
  unfold call_iterdir, lookup_method; rewrite container_getattr; simpl.
  apply iterdir_raises.
Qed.

Lemma call_joinpath_container (reader : value) (name : string) :
  call_joinpath (VResourceContainer reader) name = Err AttributeError.
Proof.
  unfold call_joinpath, lookup_method; rewrite container_getattr; simpl.
  apply joinpath_raises.
Qed.


Lemma is_resource_raises (self : value) (path : string) :
  is_resource self path = Err AttributeError.
Proof.
  unfold is_resource, TraversableResources_is_resource, TraversableReader_files.
  rewrite new_ResourceContainer_ok; cbn [bind].
  rewrite call_joinpath_container; reflexivity.
Qed.

Lemma contents_raises (self : value) : contents self = Err AttributeError.
Proof.
  unfold contents, TraversableResources_contents, TraversableReader_files.
  rewrite new_ResourceContainer_ok; cbn [bind].
  rewrite call_iterdir_container; reflexivity.
Qed.

(** An exhausted search ends in StopIteration, as [next] has no default. *)
Lemma next_of_empty_search (p : value -> result bool) :
  next (iter_filter p Stop) = Err StopIteration.
Proof. reflexivity. Qed.

Lemma prefix_one_char (a c : ascii) (s : string) :
  prefix (String a EmptyString) (String c s) = if ascii_dec a c then true else false.
Proof. cbn [prefix]. destruct (ascii_dec a c); [destruct s|]; reflexivity. Qed.

(** ['b' in mode] on a str holds exactly when one of its characters is [b]. *)
Lemma str_contains_b (s : string) :
  str_contains "b" s = true <-> In "b"%char (list_ascii_of_string s).
Proof.
  induction s as [|c s IH].
  - split; [discriminate | intros []].
  - cbn [str_contains list_ascii_of_string In].
    rewrite prefix_one_char.
    destruct (ascii_dec "b" c) as [Heq|Hne].
    + split; auto.
    + cbn [orb]. rewrite IH.
      split; [auto | intros [H|H]; [congruence | exact H]].
Qed.

Lemma str_lacks_b (s : string) :
  str_contains "b" s = false <-> ~ In "b"%char (list_ascii_of_string s).
Proof.
  rewrite <- str_contains_b. destruct (str_contains "b" s); split; congruence.
Qed.

(** [open] on a handle, with its two attribute lookups done. *)
Lemma handle_open_unfold (reader name mode : value)
    (args : list value) (kwargs : list (string * value)) :
  ResourceHandle_open (VResourceHandle reader name) mode args kwargs =
  stream <- call_open_binary reader name ;;
  b_in_mode <- py_contains "b" mode ;;
  if negb b_in_mode then io_TextIOWrapper args kwargs else Ok stream.
Proof. reflexivity. Qed.

Lemma handle_open_eq (reader name : value) (mode : string)
    (args : list value) (kwargs : list (string * value)) :
  ResourceHandle_open (VResourceHandle reader name) (VStr mode) args kwargs =
  stream <- call_open_binary reader name ;;
  if str_contains "b" mode then Ok stream else io_TextIOWrapper args kwargs.
Proof.
  unfold ResourceHandle_open; simpl.
  destruct (call_open_binary reader name); simpl; [|reflexivity].
  destruct (str_contains "b" mode); reflexivity.
Qed.

Lemma assoc_app_none {A : Type} (k k' : string) (v : A) (l : list (string * A)) :
  assoc k l = None -> String.eqb k k' = false -> assoc k (l ++ [(k', v)]) = None.
Proof.
  intros Hl Hk. induction l as [|[k0 v0] l IH]; cbn [assoc app] in *.
  - rewrite Hk; reflexivity.
  - destruct (String.eqb k k0); [discriminate | auto].
Qed.

Lemma bind_keywords_keeps_none (k : string) (kwargs bound : list (string * value)) :
  assoc k kwargs = None ->
  assoc k bound = None ->
  match bind_keywords TextIOWrapper_params bound kwargs with
  | Some b => assoc k b = None
  | None => True
  end.
Proof.
  revert bound. induction kwargs as [|[k' v] kw IH]; intros bound Hkw Hb.
  - exact Hb.
  - cbn [assoc] in Hkw. cbn [bind_keywords].
    destruct (String.eqb k k') eqn:Ek; [discriminate|].
    destruct (mem k' TextIOWrapper_params && negb (mem k' (map fst bound))); [|exact I].
    apply IH; [exact Hkw | apply assoc_app_none; assumption].
Qed.

(** Without a buffer among the caller's arguments no wrapper is built. *)
Lemma io_TextIOWrapper_needs_buffer (kwargs : list (string * value)) :
  assoc "buffer" kwargs = None ->
  io_TextIOWrapper [] kwargs = Err TypeError.
Proof.
  intros Hno. unfold io_TextIOWrapper.
  change (bind_positional TextIOWrapper_params []) with (Some (@nil (string * value))).
  cbv iota.
  pose proof (bind_keywords_keeps_none "buffer" kwargs [] Hno eq_refl) as Hgen.
  destruct (bind_keywords TextIOWrapper_params [] kwargs); [|reflexivity].
  rewrite Hgen; reflexivity.
Qed.

Lemma call_open_binary_provider (P : reader) (n : string) :
  call_open_binary (VReader P) (VStr n) =
  content <- open_binary P n ;; Ok (BinaryIO content).
Proof. reflexivity. Qed.

(** In text mode, with the provider's stream open and no buffer among the
    caller's arguments, [open] ends in TypeError. *)
Lemma text_open_without_buffer (P : reader) (n mode : string)
    (kwargs : list (string * value)) (content : list byte) :
  open_binary P n = Ok content ->
  str_contains "b" mode = false ->
  assoc "buffer" kwargs = None ->
  ResourceHandle_open (VResourceHandle (VReader P) (VStr n)) (VStr mode) [] kwargs
  = Err TypeError.
Proof.
  intros Hopen Hmode Hbuf.
  rewrite handle_open_eq, call_open_binary_provider, Hopen, Hmode.
  apply io_TextIOWrapper_needs_buffer, Hbuf.
Qed.

(** ** The claims *)

(** C1.  Claimed: for a name listed by [P.resources()], [joinpath] on
    [ResourceContainer(P)] returns a file node whose binary stream holds what
    [P.open_binary] gives.  The code does not get that far: [joinpath] starts
    with [self.iterdir()], which looks [resources] up on the container
    itself, and a container has no such attribute.  For every provider and
    every name the call ends in AttributeError; so it does for [pkg], which
    lists ["a.txt"] and opens it to two bytes. *)
Theorem joinpath_of_listed_resource :
  In "a.txt" (resources pkg) /\
  open_binary pkg "a.txt" = Ok hi /\
  on_container pkg (fun c => ResourceContainer_joinpath c "a.txt") = Err AttributeError /\
  (forall (P : reader) (n : string),
      on_container P (fun c => ResourceContainer_joinpath c n) = Err AttributeError).
Proof.
  split; [left; reflexivity|].
  split; [reflexivity|].
  split; [|intros P n]; rewrite on_container_eq; apply joinpath_raises.
Qed.

(** C2.  Claimed: a text-mode [open] on a file node returns a text wrapper
    built around the stream that [provider.open_binary(name)] returned.  The
    code opens the provider's stream first, but then calls
    [io.TextIOWrapper] with the caller's arguments alone and drops that
    stream.  On the file node ["a.txt"] of [pkg], [open("r")] and the call
    [open(encoding=None)] that [read_text] makes end in TypeError, the
    wrapper lacking its buffer; and when the caller passes a buffer, the
    wrapper is built from the caller's buffer, whatever the provider's stream
    holds. *)
Theorem text_open_drops_stream :
  open_binary pkg "a.txt" = Ok hi /\
  ResourceHandle_open a_txt (VStr "r") [] [] = Err TypeError /\
  call_open a_txt [] [("encoding", VNone)] = Err TypeError /\
  (forall buffer : value,
      ResourceHandle_open a_txt (VStr "r") [buffer] []
      = TextIOWrapper_init [("buffer", buffer)]).
Proof.
  repeat split; reflexivity.
Qed.

(** C3.  Claimed: [joinpath] with a name that is neither a resource nor the
    name of a child fails with the not-found error.  The code fails, but with
    AttributeError, raised by [iterdir] before any name is compared: so for
    ["missing"] under [pkg]; and for no provider and no name is the outcome
    FileNotFoundError. *)
Theorem joinpath_of_absent_name :
  ~ In "missing" (resources pkg) /\
  child_readers pkg = [] /\
  on_container pkg (fun c => ResourceContainer_joinpath c "missing") = Err AttributeError /\
  (forall (P : reader) (n : string),
      on_container P (fun c => ResourceContainer_joinpath c n) <> Err FileNotFoundError).
Proof.
  split; [intros [H|[]]; discriminate H|].
  split; [reflexivity|].
  split; [|intros P n]; rewrite on_container_eq, joinpath_raises;
    [reflexivity | discriminate].
Qed.

(** C4.  Claimed: [is_resource(path)] is true exactly when [path] names a
    file under the root.  The code calls [isfile()] on what [joinpath]
    returns, and [joinpath] fails before that: for the resource ["a.txt"] of
    [pkg] the call ends in AttributeError instead of returning True.  The
    method of the nodes is [is_file], which answers True on that file node;
    [isfile] exists on no value. *)
Theorem is_resource_of_listed_file :
  In "a.txt" (resources pkg) /\
  is_resource (VReader pkg) "a.txt" = Err AttributeError /\
  call_is_file a_txt = Ok (VBool true) /\
  (forall node : value, call_isfile node = Err AttributeError).
Proof.
  split; [left; reflexivity|].
  split; [apply is_resource_raises|].
  split; [reflexivity | apply call_isfile_raises].
Qed.

(** C5.  Claimed: [iterdir] yields one file node per resource name and then
    one directory node per child reader.  The code yields nothing: on
    [parent], with two resources and one child, the call ends in
    AttributeError at [self.resources]. *)
Theorem iterdir_of_populated_provider :
  resources parent = ["a.txt"; "empty.bin"] /\
  child_readers parent = [sub] /\
  on_container parent ResourceContainer_iterdir = Err AttributeError.
Proof.
  split; [reflexivity|]. split; [reflexivity|].
  rewrite on_container_eq. apply iterdir_raises.
Qed.

(** C6.  [open] on [ResourceContainer(P)] fails with IsADirectoryError, for
    every provider [P] and whatever positional and keyword arguments the call
    carries: both the method body and the call through the attribute lookup
    on the container. *)
Theorem container_open_is_a_directory (P : reader)
    (args : list value) (kwargs : list (string * value)) :
  on_container P (fun c => ResourceContainer_open c args kwargs) = Err IsADirectoryError /\
  on_container P (fun c => call_open c args kwargs) = Err IsADirectoryError.
Proof.
  split; reflexivity.
Qed.

(** C7.  Claimed: [contents()] returns the names of the entries of one
    [iterdir()] pass over [files()].  The generator it returns is built from
    [self.files().iterdir()], evaluated on the spot, and that call fails: for
    [pkg], whose one entry is ["a.txt"], and for every other reader,
    [contents()] ends in AttributeError. *)
Theorem contents_of_provider :
  resources pkg = ["a.txt"] /\
  contents (VReader pkg) = Err AttributeError /\
  (forall self : value, contents self = Err AttributeError).
Proof.
  split; [reflexivity|]. split; [|intros self]; apply contents_raises.
Qed.

(** C8.  Claimed: two calls of [iterdir()] on one container yield two equal
    sequences of (name, is_dir) pairs.  No call of [iterdir()] yields a
    sequence: on [pkg] the call ends in AttributeError, and for no provider
    does it return an iterator. *)
Theorem iterdir_yields_no_sequence :
  on_container pkg ResourceContainer_iterdir = Err AttributeError /\
  (forall (P : reader) (entries : iterator value),
      on_container P ResourceContainer_iterdir <> Ok (VIter entries)).
Proof.
  split; [|intros P entries]; rewrite on_container_eq, iterdir_raises;
    [reflexivity | discriminate].
Qed.

(** C9.  On a file node, [open] picks its branch by the test ['b' not in
    mode].  When some character of the mode string is [b], the result is what
    the provider's [open_binary] gives, unwrapped; when none is, the result
    is that of [io.TextIOWrapper] on the caller's arguments, once the
    provider's stream has been opened. *)
Theorem open_branches_on_b (P : reader) (n mode : string)
    (args : list value) (kwargs : list (string * value)) :
  (In "b"%char (list_ascii_of_string mode) ->
   ResourceHandle_open (VResourceHandle (VReader P) (VStr n)) (VStr mode) args kwargs
   = content <- open_binary P n ;; Ok (BinaryIO content)) /\
  (~ In "b"%char (list_ascii_of_string mode) ->
   ResourceHandle_open (VResourceHandle (VReader P) (VStr n)) (VStr mode) args kwargs
   = _ <- open_binary P n ;; io_TextIOWrapper args kwargs).
Proof.
  rewrite handle_open_eq, call_open_binary_provider.
  split; intros Hb.
  - apply str_contains_b in Hb. rewrite Hb.
    destruct (open_binary P n); reflexivity.
  - apply str_lacks_b in Hb. rewrite Hb.
    destruct (open_binary P n); reflexivity.
Qed.


(** ** Beyond the claims: the name of a reader *)

Lemma append_assoc (a b c : string) : ((a ++ b) ++ c = a ++ (b ++ c))%string.
Proof. induction a as [|x a IH]; cbn [append]; [reflexivity | rewrite IH; reflexivity]. Qed.

Lemma split_on_not_nil (sep : ascii) (s : string) : split_on sep s <> [].
Proof.
  destruct s as [|c s]; cbn [split_on]; [discriminate|].
  destruct (Ascii.eqb c sep); [discriminate|].
  destruct (split_on sep s); discriminate.
Qed.

Lemma split_on_cons_sep (sep : ascii) (s : string) :
  split_on sep (String sep s) = EmptyString :: split_on sep s.
Proof. cbn [split_on]. rewrite Ascii.eqb_refl. reflexivity. Qed.

Lemma split_on_cons_other (sep c : ascii) (s : string) :
  c <> sep ->
  exists w ws, split_on sep s = w :: ws /\ split_on sep (String c s) = String c w :: ws.
Proof.
  intros Hne. cbn [split_on].
  apply Ascii.eqb_neq in Hne. rewrite Hne.
  destruct (split_on sep s) as [|w ws] eqn:E.
  - exfalso. exact (split_on_not_nil sep s E).
  - exists w, ws. split; reflexivity.
Qed.

Lemma last_cons_not_nil {A : Type} (x d : A) (l : list A) :
  l <> [] -> last (x :: l) d = last l d.
Proof. destruct l; [congruence | reflexivity]. Qed.

Lemma last_in_list {A : Type} (l : list A) (d : A) : l <> [] -> In (last l d) l.
Proof.
  induction l as [|x l IH]; [congruence|]. intros _.
  destruct l as [|y l]; [left; reflexivity|].
  right. apply IH. discriminate.
Qed.

(** No component of a split holds the separator. *)
Lemma split_on_components_free (sep : ascii) (s : string) :
  Forall (fun w => ~ In sep (list_ascii_of_string w)) (split_on sep s).
Proof.
  induction s as [|c s IH].
  - constructor; [intros [] | constructor].
  - destruct (ascii_dec c sep) as [->|Hne].
    + rewrite split_on_cons_sep. constructor; [intros [] | exact IH].
    + destruct (split_on_cons_other sep c s Hne) as (w & ws & E & E').
      rewrite E'. rewrite E in IH. inversion IH as [|? ? Hw Hws]; subst.
      constructor; [|exact Hws].
      cbn [list_ascii_of_string In]. intros [H|H]; [congruence | exact (Hw H)].
Qed.

(** Joining the components with the separator gives the string back. *)
Lemma concat_split_on (sep : ascii) (s : string) :
  String.concat (String sep EmptyString) (split_on sep s) = s.
Proof.
  induction s as [|c s IH]; [reflexivity|].
  destruct (ascii_dec c sep) as [->|Hne].
  - rewrite split_on_cons_sep.
    destruct (split_on sep s) as [|w ws] eqn:E;
      [exfalso; exact (split_on_not_nil sep s E)|].
    change (String.concat (String sep EmptyString) (EmptyString :: w :: ws))
      with (String sep (String.concat (String sep EmptyString) (w :: ws))).
    rewrite IH. reflexivity.
  - destruct (split_on_cons_other sep c s Hne) as (w & ws & E & E').
    rewrite E'. rewrite E in IH.
    destruct ws as [|w' ws].
    + cbn [String.concat] in *. rewrite IH. reflexivity.
    + change (String.concat (String sep EmptyString) (String c w :: w' :: ws))
        with (String c (String.concat (String sep EmptyString) (w :: w' :: ws))).
      rewrite IH. reflexivity.
Qed.

Lemma concat_ends_with_last (sep : string) (l : list string) :
  l <> [] -> exists p, String.concat sep l = (p ++ last l EmptyString)%string.
Proof.
  induction l as [|x l IH]; [congruence|]. intros _.
  destruct l as [|y l].
  - exists EmptyString. reflexivity.
  - destruct IH as [p Hp]; [discriminate|].
    exists (x ++ sep ++ p)%string.
    change (String.concat sep (x :: y :: l))
      with (x ++ sep ++ String.concat sep (y :: l))%string.
    rewrite Hp, !append_assoc.
    reflexivity.
Qed.

Lemma split_on_free (sep : ascii) (s : string) :
  ~ In sep (list_ascii_of_string s) -> split_on sep s = [s].
Proof.
  induction s as [|c s IH]; intros Hfree; [reflexivity|].
  cbn [list_ascii_of_string In] in Hfree.
  assert (Hne : c <> sep) by (intros ->; apply Hfree; left; reflexivity).
  destruct (split_on_cons_other sep c s Hne) as (w & ws & E & E').
  rewrite E'. rewrite IH in E by (intros H; apply Hfree; right; exact H).
  injection E as <- <-. reflexivity.
Qed.

Lemma split_on_after_sep_long (sep : ascii) (p q : string) :
  exists w w' ws, split_on sep (p ++ String sep q) = w :: w' :: ws.
Proof.
  induction p as [|c p IH]; cbn [append].
  - rewrite split_on_cons_sep.
    destruct (split_on sep q) as [|w' ws] eqn:E;
      [exfalso; exact (split_on_not_nil sep q E)|].
    exists EmptyString, w', ws. reflexivity.
  - destruct IH as (w & w' & ws & E).
    destruct (ascii_dec c sep) as [->|Hne].
    + rewrite split_on_cons_sep, E. exists EmptyString, w, (w' :: ws). reflexivity.
    + destruct (split_on_cons_other sep c (p ++ String sep q)%string Hne)
        as (v & vs & E1 & E2).
      rewrite E2. rewrite E in E1. injection E1 as <- <-.
      exists (String c w), w', ws. reflexivity.
Qed.

(** What follows the last separator decides the last component. *)
Lemma last_split_on_after_sep (sep : ascii) (p q : string) :
  last (split_on sep (p ++ String sep q)) EmptyString
  = last (split_on sep q) EmptyString.
Proof.
  induction p as [|c p IH]; cbn [append].
  - rewrite split_on_cons_sep. apply last_cons_not_nil, split_on_not_nil.
  - destruct (ascii_dec c sep) as [->|Hne].
    + rewrite split_on_cons_sep, last_cons_not_nil by apply split_on_not_nil.
      exact IH.
    + destruct (split_on_cons_other sep c (p ++ String sep q)%string Hne)
        as (v & vs & E1 & E2).
      destruct (split_on_after_sep_long sep p q) as (w & w' & ws & E).
      rewrite E2. rewrite E1 in IH. rewrite E in E1. injection E1 as <- <-.
      rewrite <- IH. reflexivity.
Qed.

(** X1.  The [name] of a reader holds no dot, and its [package] ends with
    it. *)
Theorem name_is_dotless_suffix (r : reader) :
  ~ In "."%char (list_ascii_of_string (SimpleReader_name r)) /\
  exists prefix : string, package r = (prefix ++ SimpleReader_name r)%string.
Proof.
  unfold SimpleReader_name. split.
  - pose proof (split_on_components_free "."%char (package r)) as Hall.
    rewrite Forall_forall in Hall. apply Hall.
    apply last_in_list, split_on_not_nil.
  - destruct (concat_ends_with_last "." (split_on "."%char (package r))
                (split_on_not_nil _ _)) as [p Hp].
    rewrite concat_split_on in Hp. exists p. exact Hp.
Qed.

(** X2.  When the package is [prefix.n] and [n] holds no dot, the [name] of
    the reader is [n], whatever the prefix. *)
Theorem name_of_dotted_package (r : reader) (prefix n : string) :
  package r = (prefix ++ String "."%char n)%string ->
  ~ In "."%char (list_ascii_of_string n) ->
  SimpleReader_name r = n.
Proof.
  intros Hpkg Hfree. unfold SimpleReader_name.
  rewrite Hpkg, last_split_on_after_sep, split_on_free by exact Hfree.
  reflexivity.
Qed.

(** X3.  A package without a dot is its own [name]; so is the empty
    package. *)
Theorem name_of_dotless_package (r : reader) :
  ~ In "."%char (list_ascii_of_string (package r)) ->
  SimpleReader_name r = package r.
Proof.
  intros Hfree. unfold SimpleReader_name.
  rewrite split_on_free by exact Hfree. reflexivity.
Qed.

(** ** Beyond the claims: file nodes *)

Lemma call_open_handle (reader name : value)
    (args : list value) (kwargs : list (string * value)) :
  call_open (VResourceHandle reader name) args kwargs =
  match args, assoc "mode" kwargs with
  | mode :: args', None =>
      ResourceHandle_open (VResourceHandle reader name) mode args' kwargs
  | _ :: _, Some _ => Err TypeError
  | [], Some mode =>
      ResourceHandle_open (VResourceHandle reader name) mode [] (remove_key "mode" kwargs)
  | [], None => ResourceHandle_open (VResourceHandle reader name) (VStr "r") [] kwargs
  end.
Proof. reflexivity. Qed.

Lemma read_text_handle (reader name encoding : value) :
  Traversable_read_text (VResourceHandle reader name) encoding =
  _ <- call_open_binary reader name ;; Err TypeError.
Proof.
  unfold Traversable_read_text. rewrite call_open_handle. cbn [assoc String.eqb Ascii.eqb Bool.eqb].
  rewrite handle_open_eq.
  destruct (call_open_binary reader name); reflexivity.
Qed.

(** X4.  [read_bytes] on the file node of a resource gives back the bytes of
    the provider's stream, whatever they are, and the provider's error when
    the resource does not open. *)
Theorem read_bytes_round_trip (P : reader) (n : string) :
  Traversable_read_bytes (VResourceHandle (VReader P) (VStr n))
  = content <- open_binary P n ;; Ok (VBytes content).
Proof.
  unfold Traversable_read_bytes. rewrite call_open_handle. cbn [assoc].
  rewrite handle_open_eq, call_open_binary_provider.
  destruct (open_binary P n); reflexivity.
Qed.

(** X5.  [read_bytes] and [read_text] on a container fail with
    IsADirectoryError, whatever the container wraps and whatever the
    encoding. *)
Theorem read_on_container (reader encoding : value) :
  Traversable_read_bytes (VResourceContainer reader) = Err IsADirectoryError /\
  Traversable_read_text (VResourceContainer reader) encoding = Err IsADirectoryError.
Proof. split; reflexivity. Qed.

(** X6.  [read_text] on a file node never returns: it opens the node with
    the encoding as only argument, so the text wrapper is called without a
    buffer.  Over a provider the outcome is the provider's error if the
    resource does not open, and TypeError if it does. *)
Theorem read_text_never_succeeds (node_reader node_name encoding : value) :
  (forall text : value,
      Traversable_read_text (VResourceHandle node_reader node_name) encoding
      <> Ok text) /\
  (forall (P : reader) (n : string),
      Traversable_read_text (VResourceHandle (VReader P) (VStr n)) encoding
      = _ <- open_binary P n ;; Err TypeError).
Proof.
  split.
  - intros text. rewrite read_text_handle.
    destruct (call_open_binary node_reader node_name); discriminate.
  - intros P n. rewrite read_text_handle, call_open_binary_provider.
    destruct (open_binary P n); reflexivity.
Qed.

(** X7.  When the provider fails to open the resource, [open] on its file
    node fails with the provider's own error, in every mode and before the
    mode is looked at. *)
Theorem open_propagates_provider_error (P : reader) (n : string) (e : exn) :
  open_binary P n = Err e ->
  forall (mode : value) (args : list value) (kwargs : list (string * value)),
    ResourceHandle_open (VResourceHandle (VReader P) (VStr n)) mode args kwargs = Err e.
Proof.
  intros Hopen mode args kwargs.
  rewrite handle_open_unfold, call_open_binary_provider, Hopen. reflexivity.
Qed.

(** X8.  In a binary mode the further arguments of [open] play no part:
    the result is the one of the call without them. *)
Theorem binary_open_ignores_arguments (reader name : value) (mode : string)
    (args : list value) (kwargs : list (string * value)) :
  In "b"%char (list_ascii_of_string mode) ->
  ResourceHandle_open (VResourceHandle reader name) (VStr mode) args kwargs
  = ResourceHandle_open (VResourceHandle reader name) (VStr mode) [] [].
Proof.
  intros Hb. apply str_contains_b in Hb.
  rewrite !handle_open_eq, Hb. reflexivity.
Qed.

(** X9.  In a text mode the result of [open] does not depend on what the
    provider's stream holds: two resources that both open give the same
    result, the one of [io.TextIOWrapper] on the caller's arguments. *)
Theorem text_open_ignores_provider_bytes (P Q : reader) (n m mode : string)
    (content content' : list byte)
    (args : list value) (kwargs : list (string * value)) :
  open_binary P n = Ok content ->
  open_binary Q m = Ok content' ->
  ~ In "b"%char (list_ascii_of_string mode) ->
  ResourceHandle_open (VResourceHandle (VReader P) (VStr n)) (VStr mode) args kwargs
  = io_TextIOWrapper args kwargs /\
  ResourceHandle_open (VResourceHandle (VReader P) (VStr n)) (VStr mode) args kwargs
  = ResourceHandle_open (VResourceHandle (VReader Q) (VStr m)) (VStr mode) args kwargs.
Proof.
  intros HP HQ Hb. apply str_lacks_b in Hb.
  rewrite !handle_open_eq, !call_open_binary_provider, HP, HQ, Hb.
  split; reflexivity.
Qed.

(** X10.  In a text mode, when the resource opens and the caller passes no
    positional argument and no [buffer] keyword, [open] fails with TypeError,
    whatever other keywords are given. *)
Theorem text_open_needs_caller_buffer (P : reader) (n mode : string)
    (kwargs : list (string * value)) (content : list byte) :
  open_binary P n = Ok content ->
  ~ In "b"%char (list_ascii_of_string mode) ->
  assoc "buffer" kwargs = None ->
  ResourceHandle_open (VResourceHandle (VReader P) (VStr n)) (VStr mode) [] kwargs
  = Err TypeError.
Proof.
  intros Hopen Hb Hbuf. apply str_lacks_b in Hb.
  exact (text_open_without_buffer P n mode kwargs content Hopen Hb Hbuf).
Qed.

(** X11.  [iterdir] builds its file nodes with the container itself in the
    place of the reader.  Such a node cannot be opened: a container has no
    [open_binary], and [open] fails with AttributeError in every mode. *)
Theorem open_on_container_backed_handle (reader name mode : value)
    (args : list value) (kwargs : list (string * value)) :
  ResourceHandle_open (VResourceHandle (VResourceContainer reader) name) mode args kwargs
  = Err AttributeError.
Proof. reflexivity. Qed.

(** X12.  A file node inherits [iterdir] and [joinpath] from [Traversable],
    where their bodies are docstrings: called on a file node, they return
    None and raise nothing, and so does the [/] operator. *)
Theorem file_node_traversal_returns_none (reader name : value) (child : string) :
  call_iterdir (VResourceHandle reader name) = Ok VNone /\
  call_joinpath (VResourceHandle reader name) child = Ok VNone /\
  Traversable_truediv (VResourceHandle reader name) child = Ok VNone.
Proof. repeat split. Qed.

(** X13.  [ResourceHandle] leaves [iterdir] and [joinpath] abstract: where
    [ABC] enforces abstract members, [ResourceHandle(reader, name)] fails
    with TypeError for every reader and name.  [ResourceContainer(reader)]
    succeeds either way. *)
Theorem handle_instantiation (reader name : value) :
  abstract_enforced = true ->
  new_ResourceHandle reader name = Err TypeError /\
  new_ResourceContainer reader = Ok (VResourceContainer reader).
Proof.
  intros Henf. unfold new_ResourceHandle, instantiate.
  rewrite Henf. split; reflexivity.
Qed.

(** X14.  [is_file()] and [is_dir()] never agree: a file node answers True
    and False, a container False and True, whatever they hold, and on every
    other value both calls fail with AttributeError. *)
Theorem node_kinds_exclusive :
  (forall rd nm : value,
      call_is_file (VResourceHandle rd nm) = Ok (VBool true) /\
      call_is_dir (VResourceHandle rd nm) = Ok (VBool false)) /\
  (forall rd : value,
      call_is_file (VResourceContainer rd) = Ok (VBool false) /\
      call_is_dir (VResourceContainer rd) = Ok (VBool true)) /\
  (forall node : value,
      match node with
      | VResourceHandle _ _ | VResourceContainer _ => True
      | _ =>
          call_is_file node = Err AttributeError /\
          call_is_dir node = Err AttributeError
      end).
Proof.
  split; [intros rd nm; split; reflexivity|].
  split; [intros rd; split; reflexivity|].
  intros node. destruct node; try exact I; split; reflexivity.
Qed.

(** X15.  A container forwards nothing of its reader: each member of the
    [SimpleReader] interface is found on a provider and raises AttributeError
    on the container that wraps it. *)
Theorem container_lacks_reader_interface (r : reader) (attr : string) :
  In attr (own_attrs SimpleReader) ->
  (exists v : value, getattr (VReader r) attr = Ok v) /\
  getattr (VResourceContainer (VReader r)) attr = Err AttributeError.
Proof.
  cbn [own_attrs In].
  intros [<-|[<-|[<-|[<-|[<-|[]]]]]]; (split; [eexists|]; reflexivity).
Qed.

(** ** Beyond the claims: the flat reader over [files()] *)

(** X16.  [files()] of a [TraversableReader] always returns a directory
    node, which can be neither opened nor read. *)
Theorem files_root_is_directory (self : value) :
  (root <- TraversableReader_files self ;; call_is_dir root) = Ok (VBool true) /\
  (root <- TraversableReader_files self ;; call_is_file root) = Ok (VBool false) /\
  (root <- TraversableReader_files self ;; Traversable_read_bytes root)
  = Err IsADirectoryError.
Proof. repeat split. Qed.

(** X17.  An error of [files()] reaches the caller of [open_resource],
    [is_resource] and [contents] unchanged, while [resource_path] fails with
    FileNotFoundError without asking [files()]. *)
Theorem adapter_propagates_files_error (files : value -> result value)
    (self : value) (name : string) (e : exn) :
  files self = Err e ->
  TraversableResources_open_resource files self name = Err e /\
  TraversableResources_is_resource files self name = Err e /\
  TraversableResources_contents files self = Err e /\
  TraversableResources_resource_path self name = Err FileNotFoundError.
Proof.
  intros Hfiles.
  unfold TraversableResources_open_resource, TraversableResources_is_resource,
    TraversableResources_contents.
  rewrite Hfiles. repeat split.
Qed.

(** X18.  [is_resource] never answers, whatever [files()] returns among the
    values of the module: the method it calls on the joined node, [isfile],
    exists on none of them. *)
Theorem is_resource_never_answers (files : value -> result value)
    (self : value) (path : string) (answer : value) :
  TraversableResources_is_resource files self path <> Ok answer.
Proof.
  unfold TraversableResources_is_resource.
  destruct (files self) as [root|e]; cbn [bind]; [|discriminate].
  destruct (call_joinpath root path) as [node|e]; cbn [bind]; [|discriminate].
  rewrite call_isfile_raises. discriminate.
Qed.

(** X19.  Over a root that is a file node, [contents] fails with TypeError,
    iterating the None that [iterdir] returned, and [open_resource] fails
    with AttributeError, opening the None that [joinpath] returned. *)
Theorem adapter_over_file_root (files : value -> result value)
    (self reader name : value) (resource : string) :
  files self = Ok (VResourceHandle reader name) ->
  TraversableResources_contents files self = Err TypeError /\
  TraversableResources_open_resource files self resource = Err AttributeError.
Proof.
  intros Hfiles.
  unfold TraversableResources_contents, TraversableResources_open_resource.
  rewrite Hfiles. split; reflexivity.
Qed.

End Abc.

(** ** Instances *)

(** C9 at the modes ["br"] and ["w"] of the file node ["a.txt"] of [pkg]. *)
Lemma open_branches_on_b_witness :
  ResourceHandle_open (fun bound => Ok (TextIOWrapper bound)) a_txt (VStr "br") [] []
  = Ok (BinaryIO hi) /\
  ResourceHandle_open (fun bound => Ok (TextIOWrapper bound)) a_txt (VStr "w")
    [VBinaryIO []] [("encoding", VStr "utf-8")]
  = Ok (TextIOWrapper [("buffer", VBinaryIO []); ("encoding", VStr "utf-8")]).
Proof.
  split.
  - apply (proj1 (open_branches_on_b (fun bound => Ok (TextIOWrapper bound))
                    pkg "a.txt" "br" [] [])).
    simpl. left; reflexivity.
  - apply (proj2 (open_branches_on_b (fun bound => Ok (TextIOWrapper bound))
                    pkg "a.txt" "w" [VBinaryIO []] [("encoding", VStr "utf-8")])).
    simpl. intros [H|[]]; discriminate H.
Defined.

(** X2 at [sub], whose package is [pkg.sub]. *)
Lemma name_of_dotted_package_witness :
  package sub = ("pkg" ++ String "."%char "sub")%string /\
  ~ In "."%char (list_ascii_of_string "sub") /\
  SimpleReader_name sub = "sub".
Proof.
  assert (Hpkg : package sub = ("pkg" ++ String "."%char "sub")%string) by reflexivity.
  assert (Hfree : ~ In "."%char (list_ascii_of_string "sub")).
  { simpl. intros [H|[H|[H|[]]]]; discriminate H. }
  split; [exact Hpkg|]. split; [exact Hfree|].
  exact (name_of_dotted_package sub "pkg" "sub" Hpkg Hfree).
Defined.

(** X3 at [pkg]. *)
Lemma name_of_dotless_package_witness :
  ~ In "."%char (list_ascii_of_string (package pkg)) /\
  SimpleReader_name pkg = "pkg".
Proof.
  assert (Hfree : ~ In "."%char (list_ascii_of_string (package pkg))).
  { simpl. intros [H|[H|[H|[]]]]; discriminate H. }
  split; [exact Hfree|].
  exact (name_of_dotless_package pkg Hfree).
Defined.

(** X7 at a resource that [pkg] does not have, opened as text. *)
Lemma open_propagates_provider_error_witness :
  open_binary pkg "missing" = Err FileNotFoundError /\
  ResourceHandle_open (fun bound => Ok (TextIOWrapper bound))
    (VResourceHandle (VReader pkg) (VStr "missing")) (VStr "r") [VBinaryIO []] []
  = Err FileNotFoundError.
Proof.
  assert (Hopen : open_binary pkg "missing" = Err FileNotFoundError) by reflexivity.
  split; [exact Hopen|].
  exact (open_propagates_provider_error (fun bound => Ok (TextIOWrapper bound))
           pkg "missing" FileNotFoundError Hopen (VStr "r") [VBinaryIO []] []).
Defined.

(** X8 at the mode ["rb"] with an argument too many. *)
Lemma binary_open_ignores_arguments_witness :
  ResourceHandle_open (fun bound => Ok (TextIOWrapper bound)) a_txt (VStr "rb")
    [VInt 3] [("encoding", VStr "utf-8")]
  = ResourceHandle_open (fun bound => Ok (TextIOWrapper bound)) a_txt (VStr "rb") [] [].
Proof.
  apply (binary_open_ignores_arguments (fun bound => Ok (TextIOWrapper bound))
           (VReader pkg) (VStr "a.txt") "rb").
  simpl. right; left; reflexivity.
Defined.

(** X9 at the two resources of [parent], one of them empty. *)
Lemma text_open_ignores_provider_bytes_witness :
  ResourceHandle_open (fun bound => Ok (TextIOWrapper bound))
    (VResourceHandle (VReader parent) (VStr "a.txt")) (VStr "r") [VBinaryIO []] []
  = ResourceHandle_open (fun bound => Ok (TextIOWrapper bound))
      (VResourceHandle (VReader parent) (VStr "empty.bin")) (VStr "r") [VBinaryIO []] [].
Proof.
  apply (text_open_ignores_provider_bytes (fun bound => Ok (TextIOWrapper bound))
           parent parent "a.txt" "empty.bin" "r" hi [] [VBinaryIO []] []).
  - reflexivity.
  - reflexivity.
  - simpl. intros [H|[]]; discriminate H.
Defined.

(** X10 at [open("r", encoding="utf-8")] on the file node of [pkg]. *)
Lemma text_open_needs_caller_buffer_witness :
  ResourceHandle_open (fun bound => Ok (TextIOWrapper bound)) a_txt (VStr "r")
    [] [("encoding", VStr "utf-8")]
  = Err TypeError.
Proof.
  apply (text_open_needs_caller_buffer (fun bound => Ok (TextIOWrapper bound))
           pkg "a.txt" "r" [("encoding", VStr "utf-8")] hi).
  - reflexivity.
  - simpl. intros [H|[]]; discriminate H.
  - reflexivity.
Defined.

(** X13 where [ABC] enforces abstract members. *)
Lemma handle_instantiation_witness :
  new_ResourceHandle true (VReader pkg) (VStr "a.txt") = Err TypeError /\
  new_ResourceContainer true (VReader pkg) = Ok (VResourceContainer (VReader pkg)).
Proof.
  exact (handle_instantiation true (VReader pkg) (VStr "a.txt") eq_refl).
Defined.

(** X15 at the [resources] of [pkg]. *)
Lemma container_lacks_reader_interface_witness :
  In "resources" (own_attrs SimpleReader) /\
  (exists v : value, getattr (VReader pkg) "resources" = Ok v) /\
  getattr (VResourceContainer (VReader pkg)) "resources" = Err AttributeError.
Proof.
  assert (Hin : In "resources" (own_attrs SimpleReader)).
  { simpl. right; right; left; reflexivity. }
  split; [exact Hin|].
  exact (container_lacks_reader_interface pkg "resources" Hin).
Defined.

(** X17 at a [files()] that fails. *)
Lemma adapter_propagates_files_error_witness :
  TraversableResources_contents true (fun _ => Err (OtherError "ImportError")) (VReader pkg)
  = Err (OtherError "ImportError").
Proof.
  apply (adapter_propagates_files_error true (fun bound => Ok (TextIOWrapper bound))
           (fun _ => Err (OtherError "ImportError")) (VReader pkg) "a.txt"
           (OtherError "ImportError") eq_refl).
Defined.

(** X19 at a [files()] that returns the file node of [pkg]. *)
Lemma adapter_over_file_root_witness :
  TraversableResources_contents true (fun _ => Ok a_txt) (VReader pkg) = Err TypeError /\
  TraversableResources_open_resource true (fun bound => Ok (TextIOWrapper bound))
    (fun _ => Ok a_txt) (VReader pkg) "a.txt"
  = Err AttributeError.
Proof.
  exact (adapter_over_file_root true (fun bound => Ok (TextIOWrapper bound))
           (fun _ => Ok a_txt) (VReader pkg) (VReader pkg) (VStr "a.txt") "a.txt" eq_refl).
Defined.
